(** * arduino-library-deploy: the release action (action.py)

    A shallow embedding of [action.py] and of the parts of its collaborators
    that its control flow depends on:

    - Python's [str] methods used by the script ([lstrip], [startswith],
      [replace], [in], [split]);
    - the [semver] package's [VersionInfo.parse] and [VersionInfo.compare];
    - the process environment, the file system, the [arduino-lint]
      subprocess and the forge's HTTP answers, gathered in a [World] the
      script is run against.

    A run of the script is a pure function of the [World]: it yields the list
    of observable events (lines printed, file-system probes, subprocesses
    started, HTTP requests sent) together with the way the interpreter
    leaves the code ([return], [sys.exit], or an exception nobody catches).

    Strings are Rocq [string]s, that is sequences of 8-bit characters; for
    these the regular-expression class [\d] is exactly [0-9]. *)

From Stdlib Require Import String Ascii List NArith ZArith Bool Lia.
Import ListNotations.
Local Open Scope string_scope.

(** ** Python [str] methods *)

Module PyStr.

(** [s.lstrip(c)] for a one-character set: drops every leading [c]. *)
Fixpoint lstrip (c : ascii) (s : string) : string :=
  match s with
  | EmptyString => EmptyString
  | String x s' => if Ascii.eqb x c then lstrip c s' else s
  end.

(** [s.startswith(p)]. *)
Definition startswith (s p : string) : bool := String.prefix p s.

(** [sub in s]. *)
Fixpoint contains (sub s : string) : bool :=
  String.prefix sub s
  || match s with
     | EmptyString => false
     | String _ s' => contains sub s'
     end.

(** [s.replace(old, "")] for a non-empty [old]: scanning from the left,
    every occurrence of [old] that does not overlap an earlier one is
    dropped.  [skip] counts the characters of the current occurrence that
    are still to be dropped. *)
Fixpoint remove_from (old : string) (skip : nat) (s : string) : string :=
  match s with
  | EmptyString => EmptyString
  | String x s' =>
      match skip with
      | S k => remove_from old k s'
      | O =>
          if String.prefix old s
          then remove_from old (String.length old - 1) s'
          else String x (remove_from old 0 s')
      end
  end.

Definition remove_all (old s : string) : string := remove_from old 0 s.

(** [s.split(sep)] for a one-character separator. *)
Fixpoint split (sep : ascii) (s : string) : list string :=
  match s with
  | EmptyString => [EmptyString]
  | String x s' =>
      if Ascii.eqb x sep then EmptyString :: split sep s'
      else match split sep s' with
           | h :: t => String x h :: t
           | [] => [String x EmptyString]
           end
  end.

(** Truth value of a [str]: the empty string is false. *)
Definition nonempty (s : string) : bool :=
  match s with EmptyString => false | String _ _ => true end.

(** Truth value of the result of [os.getenv]: [None] and [""] are false. *)
Definition truthy (o : option string) : bool :=
  match o with Some s => nonempty s | None => false end.

End PyStr.

(** ** The [semver] package: [VersionInfo] *)

(** The script leaves parsing and comparing to the [semver] package; this
    is the package's [VersionInfo], with [parse] after its regular
    expression and [compare] after its [compare] and [_nat_cmp]. *)

Module Semver.

Record VersionInfo : Type := mkVersion {
  major : N;
  minor : N;
  patch : N;
  prerelease : option string;
  build : option string
}.

Definition is_digit (c : ascii) : bool :=
  let n := N_of_ascii c in ((48 <=? n) && (n <=? 57))%N.

Definition is_alpha (c : ascii) : bool :=
  let n := N_of_ascii c in
  (((65 <=? n) && (n <=? 90)) || ((97 <=? n) && (n <=? 122)))%N.

(** The class [[0-9a-zA-Z-]]. *)
Definition is_ident_char (c : ascii) : bool :=
  is_digit c || is_alpha c || Ascii.eqb c "-".

Fixpoint all_chars (p : ascii -> bool) (s : string) : bool :=
  match s with
  | EmptyString => true
  | String x s' => p x && all_chars p s'
  end.

(** The longest prefix of [s] whose characters satisfy [p], and the rest. *)
Fixpoint span (p : ascii -> bool) (s : string) : string * string :=
  match s with
  | EmptyString => (EmptyString, EmptyString)
  | String x s' =>
      if p x then let (a, b) := span p s' in (String x a, b)
      else (EmptyString, s)
  end.

(** [int(text)] on a string of decimal digits. *)
Fixpoint int_acc (acc : N) (s : string) : N :=
  match s with
  | EmptyString => acc
  | String x s' => int_acc (10 * acc + (N_of_ascii x - 48))%N s'
  end.

Definition int (s : string) : N := int_acc 0 s.

(** [0|[1-9]\d*] as a whole string. *)
Definition is_numeric_id (s : string) : bool :=
  match s with
  | EmptyString => false
  | String "0" EmptyString => true
  | String "0" (String _ _) => false
  | String _ _ => all_chars is_digit s
  end.

(** The group [0|[1-9]\d*] at the head of [s]: what follows in the pattern
    is never a digit, so the group is the whole run of digits. *)
Definition number (s : string) : option (N * string) :=
  let (ds, rest) := span is_digit s in
  if is_numeric_id ds then Some (int ds, rest) else None.

Definition expect (c : ascii) (s : string) : option string :=
  match s with
  | String x s' => if Ascii.eqb x c then Some s' else None
  | EmptyString => None
  end.

(** One pre-release identifier:
    [0|[1-9]\d*|\d*[a-zA-Z-][0-9a-zA-Z-]*]. *)
Definition is_prerelease_id (s : string) : bool :=
  PyStr.nonempty s && all_chars is_ident_char s
  && (if all_chars is_digit s then is_numeric_id s else true).

(** One build identifier: [[0-9a-zA-Z-]+]. *)
Definition is_build_id (s : string) : bool :=
  PyStr.nonempty s && all_chars is_ident_char s.

(** A dot-separated list of identifiers at the head of [s].  What follows
    such a list in the pattern is neither an identifier character nor a
    dot, so the group is the whole run of such characters. *)
Definition identifiers (ok : string -> bool) (s : string)
  : option (string * string) :=
  let (run, rest) := span (fun c => is_ident_char c || Ascii.eqb c ".") s in
  if forallb ok (PyStr.split "." run) then Some (run, rest) else None.

Definition newline : ascii := ascii_of_nat 10.

(** [$]: the end of the string, or just before a newline that ends it. *)
Definition at_end (s : string) : bool :=
  match s with
  | EmptyString => true
  | String x EmptyString => Ascii.eqb x newline
  | _ => false
  end.

Definition optional_group (lead : ascii) (ok : string -> bool) (s : string)
  : option (option string * string) :=
  match s with
  | String x s' =>
      if Ascii.eqb x lead then
        match identifiers ok s' with
        | Some (g, rest) => Some (Some g, rest)
        | None => None
        end
      else Some (None, s)
  | EmptyString => Some (None, s)
  end.

(** [VersionInfo.parse]: [None] stands for the [ValueError] it raises when
    the string does not match the package's pattern
<<
    ^ NUM \. NUM \. NUM (?: - ID (?: \. ID )* )? (?: \+ B (?: \. B )* )? $
>>
    with [NUM] as in [number], [ID] as in [is_prerelease_id] and [B] as in
    [is_build_id]; the groups are major, minor, patch, prerelease and
    build. *)
Definition parse (s : string) : option VersionInfo :=
  match number s with
  | None => None
  | Some (ma, r1) =>
  match expect "." r1 with
  | None => None
  | Some r2 =>
  match number r2 with
  | None => None
  | Some (mi, r3) =>
  match expect "." r3 with
  | None => None
  | Some r4 =>
  match number r4 with
  | None => None
  | Some (pa, r5) =>
  match optional_group "-" is_prerelease_id r5 with
  | None => None
  | Some (pre, r6) =>
  match optional_group "+" is_build_id r6 with
  | None => None
  | Some (bld, r7) =>
      if at_end r7 then Some (mkVersion ma mi pa pre bld) else None
  end end end end end end end.

(** [cmp] on the tuples [(major, minor, patch)]. *)
Definition cmp_tuple (a b : VersionInfo) : comparison :=
  match (major a ?= major b)%N with
  | Eq => match (minor a ?= minor b)%N with
          | Eq => (patch a ?= patch b)%N
          | c => c
          end
  | c => c
  end.

(** A pre-release identifier after [convert]: an [int] when it is all
    digits, the text otherwise. *)
Inductive tag : Type :=
| TInt (n : N)
| TStr (s : string).

Definition convert (text : string) : tag :=
  if PyStr.nonempty text && all_chars is_digit text
  then TInt (int text) else TStr text.

Definition split_key (key : string) : list tag :=
  map convert (PyStr.split "." key).

Definition cmp_prerelease_tag (a b : tag) : comparison :=
  match a, b with
  | TInt x, TInt y => (x ?= y)%N
  | TInt _, TStr _ => Lt
  | TStr _, TInt _ => Gt
  | TStr x, TStr y => String.compare x y
  end.

(** The [for ... in zip(a_parts, b_parts)] loop of [_nat_cmp]: the first
    comparison that is not [0], or [Eq] when the loop runs to its end. *)
Fixpoint cmp_zip (l1 l2 : list tag) : comparison :=
  match l1, l2 with
  | x :: l1', y :: l2' =>
      match cmp_prerelease_tag x y with
      | Eq => cmp_zip l1' l2'
      | c => c
      end
  | _, _ => Eq
  end.

Definition or_empty (o : option string) : string :=
  match o with
  | Some s => s
  | None => EmptyString
  end.

Definition _nat_cmp (a b : option string) : comparison :=
  let a := or_empty a in
  let b := or_empty b in
  match cmp_zip (split_key a) (split_key b) with
  | Eq => Nat.compare (String.length a) (String.length b)
  | c => c
  end.

(** [VersionInfo.compare]: [Lt], [Eq], [Gt] stand for [-1], [0], [1]. *)
Definition compare (a b : VersionInfo) : comparison :=
  match cmp_tuple a b with
  | Eq =>
      match _nat_cmp (prerelease a) (prerelease b) with
      | Eq => Eq
      | rccmp =>
          if negb (PyStr.truthy (prerelease a)) then Gt
          else if negb (PyStr.truthy (prerelease b)) then Lt
          else rccmp
      end
  | x => x
  end.

(** [a <= b] and [a > b] on [VersionInfo]. *)
Definition le (a b : VersionInfo) : bool :=
  match compare a b with Gt => false | _ => true end.


End Semver.

(** ** Python values, exceptions and observable events *)

(** The values the script handles besides environment strings: what
    [response.json()] decodes to ([float]s are left out).  A [dict] is the
    list of its bindings, each key bound once. *)
#[warnings="-register-all"]
Inductive pyval : Type :=
| PyNone
| PyBool (b : bool)
| PyInt (n : Z)
| PyStr (s : string)
| PyList (l : list pyval)
| PyDict (d : list (string * pyval)).

(** The result of [os.getenv] as a value. *)
Definition of_env (o : option string) : pyval :=
  match o with
  | Some s => PyStr s
  | None => PyNone
  end.

Inductive Exn : Type :=
| ValueError (text : string)            (* semver: text is not valid SemVer *)
| AttributeError                        (* method of [str] on another value *)
| TypeError
| KeyError (key : string)
| CalledProcessError (stdout stderr : string)
| OSError                               (* the subprocess could not start *)
| HTTPError (status : Z)                (* [raise_for_status] *)
| ConnectionError                       (* [requests] got no response *)
| JSONDecodeError.

(** The JSON bodies the script sends. *)
Record PullData : Type := mkPullData {
  title : string;
  head : option string;
  base : option string;
  pull_body : string
}.

Record ReleaseData : Type := mkReleaseData {
  tag_name : string;
  name : string;
  release_body : string;
  draft : bool;
  is_prerelease : bool
}.

(** The four requests, all under [GITHUB_API_URL] and with [HEADERS]. *)
Inductive Request : Type :=
| GetLatestRelease                      (* GET  /releases/latest *)
| PostPulls (data : PullData)           (* POST /pulls *)
| PutMerge (pr_number : pyval)          (* PUT  /pulls/{pr_number}/merge,
                                           {'merge_method': 'squash'} *)
| PostReleases (data : ReleaseData).    (* POST /releases *)

Record Response : Type := mkResponse {
  status_code : Z;
  text : string;
  json_body : option pyval              (* [None]: the body is not JSON *)
}.

(** Every [print] of the script, with the values it interpolates. *)
Inductive Msg : Type :=
| MetadataMissing        (* Error: library.properties file is missing. *)
| MetadataFound          (* library.properties found. *)
| StylePassed            (* Code style validation passed. *)
| Output (s : string)    (* result.stdout *)
| StyleFailed            (* Error: Code style validation failed. *)
| FailedStdout (s : string)              (* stdout: {e.stdout} *)
| FailedStderr (s : string)              (* stderr: {e.stderr} *)
| InvalidVersion (e : Exn)  (* Error: Invalid semantic version. {e} *)
| PrereleaseWarning (new_version : pyval)
    (* Warning: New version '{new_version}' is a pre-release. *)
| VersionNotAdvanced (new_version old_version : pyval)
    (* Error: New version '{new_version}' is not greater than old version
       '{old_version}'. *)
| VersionPassed (old_version new_version : pyval)
    (* Version validation passed: {old_version} -> {new_version} *)
| NoReleases             (* No releases found. Assuming initial version 0.0.0. *)
| PrCreated (number : pyval)
    (* Successfully created PR #{pr['number']}. *)
| PrCreateError (status : Z) (body : string)
    (* Error creating PR: {response.status_code} {response.text} *)
| PrExists               (* A PR already exists for this branch. ... *)
| PrMerged (pr_number : pyval)
    (* Successfully merged PR #{pr_number}. *)
| MergeError (pr_number : pyval) (status : Z) (body : string)
    (* Error merging PR #{pr_number}: {response.status_code} {response.text} *)
| ReleaseCreated (tag : string)
    (* Successfully created release {tag}. *)
| ReleaseError (status : Z) (body : string)
    (* Error creating release: {response.status_code} {response.text} *)
| HandlingPullRequest    (* -- Handling Pull Request -- *)
| MissingParameters      (* Error: Missing pr_version, main_version, ... *)
| PullRequestHandled     (* -- Pull Request Handled Successfully -- *)
| HandlingTagPush        (* -- Handling Tag Push -- *)
| NotATagPush            (* This push is not a tag push. Skipping. *)
| DetectedTag (new_tag : string)
    (* Detected new tag: {new_tag} *)
| LatestRelease (target_branch : option string) (latest_version : pyval)
    (* Latest release version on '{TARGET_BRANCH}' is '{latest_version}'. *)
| CreatingPr (source_branch target_branch : option string)
    (* Creating PR from '{SOURCE_BRANCH}' to '{TARGET_BRANCH}'... *)
| TagPushHandled         (* -- Tag Push Handled Successfully -- *)
| UnsupportedEvent (event_name : option string).
    (* Warning: Unsupported event type '{GITHUB_EVENT_NAME}'. Skipping. *)

Inductive Event : Type :=
| EPrint (m : Msg)
| EExists (path : string)               (* Path(path).exists() *)
| ERun (args : list string)             (* subprocess.run(args, ...) *)
| ERequest (r : Request).

(** ** Runs *)

(** How control leaves a piece of code: with a value, through [sys.exit], or
    through an exception. *)
Inductive Outcome (A : Type) : Type :=
| Ret (a : A)
| Exit (code : Z)
| Raise (e : Exn).

Arguments Ret {A} a.
Arguments Exit {A} code.
Arguments Raise {A} e.

Definition Run (A : Type) : Type := (list Event * Outcome A)%type.

Definition ret {A} (a : A) : Run A := ([], Ret a).

Definition bind {A B} (m : Run A) (k : A -> Run B) : Run B :=
  match m with
  | (t, Ret a) => let (t', o) := k a in ((t ++ t')%list, o)
  | (t, Exit c) => (t, Exit c)
  | (t, Raise e) => (t, Raise e)
  end.

Declare Scope run_scope.
Delimit Scope run_scope with run.
Notation "x <- c ;; k" := (bind c (fun x => k))
  (at level 61, c at next level, right associativity) : run_scope.
Notation "c ;; k" := (bind c (fun _ => k))
  (at level 61, right associativity) : run_scope.
Local Open Scope run_scope.

Definition emit (e : Event) : Run unit := ([e], Ret tt).
Definition print (m : Msg) : Run unit := emit (EPrint m).
Definition sys_exit {A} (code : Z) : Run A := ([], Exit code).
Definition raise {A} (e : Exn) : Run A := ([], Raise e).

(** [if c: body] without an [else]. *)
Definition when (c : bool) (body : Run unit) : Run unit :=
  if c then body else ret tt.

(** [try: body / except <class>: handler]: [handler e] is [None] for the
    exceptions the clause does not name. *)
Definition try_except {A} (body : Run A) (handler : Exn -> option (Run A))
  : Run A :=
  match body with
  | (t, Raise e) =>
      match handler e with
      | Some h => let (t', o) := h in ((t ++ t')%list, o)
      | None => (t, Raise e)
      end
  | r => r
  end.

Definition trace {A} (r : Run A) : list Event := fst r.
Definition outcome {A} (r : Run A) : Outcome A := snd r.

(** The status the interpreter ends the process with. *)
Definition exit_code {A} (r : Run A) : Z :=
  match outcome r with
  | Ret _ => 0
  | Exit c => c
  | Raise _ => 1
  end.

(** ** The world a run happens in *)

(** What [subprocess.run] learns from the child. *)
Inductive ProcessResult : Type :=
| Completed (returncode : Z) (stdout stderr : string)
| NotStarted.

Inductive HttpResult : Type :=
| Answer (r : Response)
| NoAnswer.

(** Everything outside the script that a run depends on.  A run sends each
    of its requests once at most, so that an answer per request describes
    any forge as far as one run can tell. *)
Record World : Type := mkWorld {
  environ : string -> option string;
  path_exists : string -> bool;
  subprocess : list string -> ProcessResult;
  forge : Request -> HttpResult
}.

(** ** The script *)

Section Script.

Variable w : World.

(** *** What the script calls *)

Definition os_getenv (key : string) : option string := environ w key.

(** [Path(path).exists()]. *)
Definition Path_exists (path : string) : Run bool :=
  emit (EExists path) ;; ret (path_exists w path).

Fixpoint all_str (args : list (option string)) : option (list string) :=
  match args with
  | [] => Some []
  | Some a :: rest =>
      match all_str rest with
      | Some l => Some (a :: l)
      | None => None
      end
  | None :: _ => None
  end.

(** [subprocess.run(args, capture_output=True, text=True, check=True)],
    returning [result.stdout].  An argument that is [None] is a
    [TypeError] before any process is started. *)
Definition subprocess_run (args : list (option string)) : Run string :=
  match all_str args with
  | None => raise TypeError
  | Some l =>
      emit (ERun l) ;;
      match subprocess w l with
      | Completed rc out err =>
          if (rc =? 0)%Z then ret out else raise (CalledProcessError out err)
      | NotStarted => raise OSError
      end
  end.

(** [requests.get], [requests.post] and [requests.put]. *)
Definition requests (r : Request) : Run Response :=
  emit (ERequest r) ;;
  match forge w r with
  | Answer a => ret a
  | NoAnswer => raise ConnectionError
  end.

Definition raise_for_status (r : Response) : Run unit :=
  if ((400 <=? status_code r) && (status_code r <? 600))%Z
  then raise (HTTPError (status_code r)) else ret tt.

Definition json (r : Response) : Run pyval :=
  match json_body r with
  | Some v => ret v
  | None => raise JSONDecodeError
  end.

Fixpoint lookup (key : string) (d : list (string * pyval)) : option pyval :=
  match d with
  | [] => None
  | (k, v) :: d' => if String.eqb k key then Some v else lookup key d'
  end.

(** [v[key]] for a string [key]. *)
Definition getitem (v : pyval) (key : string) : Run pyval :=
  match v with
  | PyDict d =>
      match lookup key d with
      | Some x => ret x
      | None => raise (KeyError key)
      end
  | _ => raise TypeError
  end.

(** [v.lstrip('v')]. *)
Definition lstrip_v (v : pyval) : Run string :=
  match v with
  | PyStr s => ret (PyStr.lstrip "v" s)
  | _ => raise AttributeError
  end.

(** [semver.VersionInfo.parse(s)]. *)
Definition VersionInfo_parse (s : string) : Run Semver.VersionInfo :=
  match Semver.parse s with
  | Some v => ret v
  | None => raise (ValueError s)
  end.

Definition is_not_None {A} (o : option A) : bool :=
  match o with Some _ => true | None => false end.

(** *** Inputs (lines 10-17) *)

Definition LINT_MODE : option string := os_getenv "INPUT_LINT-MODE".
Definition SOURCE_BRANCH : option string := os_getenv "INPUT_SOURCE-BRANCH".
Definition TARGET_BRANCH : option string := os_getenv "INPUT_TARGET-BRANCH".
Definition GITHUB_EVENT_NAME : option string := os_getenv "GITHUB_EVENT_NAME".
Definition GITHUB_REF : option string := os_getenv "GITHUB_REF".

(** *** Validation functions (lines 28-66) *)

Definition validate_library_metadata : Run unit :=
  found <- Path_exists "library.properties" ;;
  when (negb found) (print MetadataMissing ;; sys_exit 1) ;;
  print MetadataFound.

(** The [try] covers the subprocess and the prints after it; only
    [CalledProcessError], which [check=True] raises on a return code other
    than 0, is handled. *)
Definition validate_code_style : Run unit :=
  try_except
    (out <- subprocess_run
              [Some "arduino-lint"; Some "--library-manager"; LINT_MODE] ;;
     print StylePassed ;;
     when (PyStr.nonempty out) (print (Output out)))
    (fun e =>
       match e with
       | CalledProcessError out err =>
           Some (print StyleFailed ;;
                 when (PyStr.nonempty out) (print (FailedStdout out)) ;;
                 when (PyStr.nonempty err) (print (FailedStderr err)) ;;
                 sys_exit 1)
       | _ => None
       end).

(** The [try] covers the two [lstrip] and the two [parse]; only the
    parser's [ValueError] is handled. *)
Definition validate_version (new_version old_version : pyval) : Run unit :=
  vs <- try_except
          (a <- lstrip_v new_version ;;
           new_v <- VersionInfo_parse a ;;
           b <- lstrip_v old_version ;;
           old_v <- VersionInfo_parse b ;;
           ret (new_v, old_v))
          (fun e =>
             match e with
             | ValueError _ => Some (print (InvalidVersion e) ;; sys_exit 1)
             | _ => None
             end) ;;
  let new_v := fst vs in
  let old_v := snd vs in
  when (is_not_None (Semver.prerelease new_v))
       (print (PrereleaseWarning new_version)) ;;
  when (Semver.le new_v old_v)
       (print (VersionNotAdvanced new_version old_version) ;; sys_exit 1) ;;
  print (VersionPassed old_version new_version).

(** *** GitHub API functions (lines 70-130) *)

Definition get_latest_release_version : Run pyval :=
  response <- requests GetLatestRelease ;;
  if (status_code response =? 404)%Z then
    print NoReleases ;; ret (PyStr "0.0.0")
  else
    raise_for_status response ;;
    body <- json response ;;
    getitem body "tag_name".

Definition create_pr (new_version : string) : Run pyval :=
  let data :=
    {| title := "Release: " ++ new_version;
       head := SOURCE_BRANCH;
       base := TARGET_BRANCH;
       pull_body := "Automated release for version " ++ new_version ++ "." |}
  in
  response <- requests (PostPulls data) ;;
  if (status_code response =? 201)%Z then
    pr <- json response ;;
    number <- getitem pr "number" ;;
    print (PrCreated number) ;;
    ret number
  else
    print (PrCreateError (status_code response) (text response)) ;;
    when (PyStr.contains "A pull request already exists" (text response))
         (print PrExists ;; sys_exit 0) ;;
    sys_exit 1.

Definition merge_pr (pr_number : pyval) : Run unit :=
  response <- requests (PutMerge pr_number) ;;
  if (status_code response =? 200)%Z then
    print (PrMerged pr_number)
  else
    print (MergeError pr_number (status_code response) (text response)) ;;
    sys_exit 1.

Definition create_release (version : pyval) : Run unit :=
  stripped <- lstrip_v version ;;
  let tag := "v" ++ stripped in
  v <- VersionInfo_parse stripped ;;
  let data :=
    {| tag_name := tag;
       name := "Release " ++ tag;
       release_body := "Automated release for version " ++ tag ++ ".";
       draft := false;
       is_prerelease := is_not_None (Semver.prerelease v) |}
  in
  response <- requests (PostReleases data) ;;
  if (status_code response =? 201)%Z then
    print (ReleaseCreated tag)
  else
    print (ReleaseError (status_code response) (text response)) ;;
    sys_exit 1.

(** *** Workflow handlers (lines 134-175) *)

(** [not all([pr_version, main_version, pr_number])] holds when one of the
    three is unset or empty. *)
Definition handle_pull_request : Run unit :=
  print HandlingPullRequest ;;
  let pr_version := os_getenv "pr_version" in
  let main_version := os_getenv "main_version" in
  let pr_number := os_getenv "PR_NUMBER" in
  when (negb (PyStr.truthy pr_version && PyStr.truthy main_version
              && PyStr.truthy pr_number))
       (print MissingParameters ;; sys_exit 1) ;;
  validate_version (of_env pr_version) (of_env main_version) ;;
  validate_library_metadata ;;
  validate_code_style ;;
  merge_pr (of_env pr_number) ;;
  create_release (of_env pr_version) ;;
  print PullRequestHandled.

(** [not GITHUB_REF or not GITHUB_REF.startswith('refs/tags/')] leads to
    the early [return]. *)
Definition handle_tag_push : Run unit :=
  print HandlingTagPush ;;
  match GITHUB_REF with
  | None => print NotATagPush
  | Some ref =>
      if negb (PyStr.nonempty ref)
         || negb (PyStr.startswith ref "refs/tags/")
      then print NotATagPush
      else
        let new_tag := PyStr.remove_all "refs/tags/" ref in
        print (DetectedTag new_tag) ;;
        latest_version <- get_latest_release_version ;;
        print (LatestRelease TARGET_BRANCH latest_version) ;;
        validate_version (PyStr new_tag) latest_version ;;
        validate_library_metadata ;;
        validate_code_style ;;
        print (CreatingPr SOURCE_BRANCH TARGET_BRANCH) ;;
        pr_number <- create_pr new_tag ;;
        merge_pr pr_number ;;
        create_release (PyStr new_tag) ;;
        print TagPushHandled
  end.

(** *** Main function (lines 179-185) *)

Definition is_event (kind : string) : bool :=
  match GITHUB_EVENT_NAME with
  | Some e => String.eqb e kind
  | None => false
  end.

Definition main : Run unit :=
  if is_event "pull_request" then handle_pull_request
  else if is_event "push" then handle_tag_push
  else print (UnsupportedEvent GITHUB_EVENT_NAME).

End Script.

(** ** Concrete worlds *)

Module Scenario.

Fixpoint env_of (l : list (string * string)) (key : string) : option string :=
  match l with
  | [] => None
  | (k, v) :: l' => if String.eqb k key then Some v else env_of l' key
  end.

Definition ok (status : Z) (body : option pyval) : HttpResult :=
  Answer (mkResponse status "" body).

Definition lint_passes (args : list string) : ProcessResult :=
  Completed 0 "" "".

(** A forge on which every mutation succeeds; [latest] is its answer to
    the query for the latest release. *)
Definition forge_ok (latest : HttpResult) (r : Request) : HttpResult :=
  match r with
  | GetLatestRelease => latest
  | PostPulls _ => ok 201 (Some (PyDict [("number", PyInt 7)]))
  | PutMerge _ => ok 200 None
  | PostReleases _ => ok 201 None
  end.

Definition no_release : HttpResult := Answer (mkResponse 404 "Not Found" None).

Definition server_error : HttpResult :=
  Answer (mkResponse 500 "Internal Server Error" None).

(** A forge that cannot be reached. *)
Definition unreachable (r : Request) : HttpResult := NoAnswer.

(** A forge on which the pull request is there already. *)
Definition forge_duplicate (r : Request) : HttpResult :=
  match r with
  | PostPulls _ =>
      Answer (mkResponse 422
                "Validation Failed: A pull request already exists for develop."
                None)
  | _ => forge_ok no_release r
  end.

(** A forge that refuses to merge. *)
Definition forge_no_merge (r : Request) : HttpResult :=
  match r with
  | PutMerge _ => Answer (mkResponse 405 "Pull Request is not mergeable" None)
  | _ => forge_ok no_release r
  end.

Definition release (tag : string) : HttpResult :=
  ok 200 (Some (PyDict [("tag_name", PyStr tag)])).

(** A pull-request event. *)
Definition pull_request (pr_version main_version : string)
  (metadata : bool) (f : Request -> HttpResult) : World :=
  {| environ := env_of [("GITHUB_EVENT_NAME", "pull_request");
                        ("pr_version", pr_version);
                        ("main_version", main_version);
                        ("PR_NUMBER", "12");
                        ("INPUT_LINT-MODE", "update");
                        ("INPUT_SOURCE-BRANCH", "develop");
                        ("INPUT_TARGET-BRANCH", "main")];
     path_exists := fun _ => metadata;
     subprocess := lint_passes;
     forge := f |}.

(** A push event. *)
Definition push (ref : string) (f : Request -> HttpResult) : World :=
  {| environ := env_of [("GITHUB_EVENT_NAME", "push");
                        ("GITHUB_REF", ref);
                        ("INPUT_LINT-MODE", "update");
                        ("INPUT_SOURCE-BRANCH", "develop");
                        ("INPUT_TARGET-BRANCH", "main")];
     path_exists := fun _ => true;
     subprocess := lint_passes;
     forge := f |}.

End Scenario.

(** ** Observations on a trace *)

(** What a run does besides printing. *)
Definition is_effect (e : Event) : bool :=
  match e with
  | EPrint _ => false
  | _ => true
  end.

Definition effects (t : list Event) : list Event := filter is_effect t.





(** The forge calls that change the repository for good: merge and
    publish. *)
Definition mutation_of (e : Event) : list Request :=
  match e with
  | ERequest (PutMerge n) => [PutMerge n]
  | ERequest (PostReleases d) => [PostReleases d]
  | _ => []
  end.

Definition mutations (t : list Event) : list Request :=
  flat_map mutation_of t.

(** The request [create_pr] builds. *)
Definition pulls_request (w : World) (new_version : string) : Request :=
  PostPulls
    {| title := "Release: " ++ new_version;
       head := SOURCE_BRANCH w;
       base := TARGET_BRANCH w;
       pull_body := "Automated release for version " ++ new_version ++ "." |}.

(** The request [create_release] builds for a version whose stripped
    string parses to [x]. *)
Definition release_request (stripped : string) (x : Semver.VersionInfo)
  : Request :=
  let tag := "v" ++ stripped in
  PostReleases
    {| tag_name := tag;
       name := "Release " ++ tag;
       release_body := "Automated release for version " ++ tag ++ ".";
       draft := false;
       is_prerelease := is_not_None (Semver.prerelease x) |}.

(** The forge answered [q] with the status [status]. *)
Definition answered_with (w : World) (q : Request) (status : Z) : bool :=
  match forge w q with
  | Answer r => (status_code r =? status)%Z
  | NoAnswer => false
  end.



(** Every request of a run, in the order sent. *)
Definition request_of (e : Event) : list Request :=
  match e with
  | ERequest r => [r]
  | _ => []
  end.

Definition requests_sent (t : list Event) : list Request :=
  flat_map request_of t.

(** The four endpoints. *)
Inductive Kind : Type :=
| Latest
| Pulls
| Merge
| Release.

Definition kind_of (r : Request) : Kind :=
  match r with
  | GetLatestRelease => Latest
  | PostPulls _ => Pulls
  | PutMerge _ => Merge
  | PostReleases _ => Release
  end.

Definition kinds (t : list Event) : list Kind := map kind_of (requests_sent t).



(** * Properties *)

(** ** Runs *)

Section RunFacts.

Context {A B : Type}.

Lemma trace_bind (m : Run A) (k : A -> Run B) :
  trace (bind m k)
  = (trace m ++ match outcome m with
                | Ret a => trace (k a)
                | _ => []
                end)%list.
Proof.
  destruct m as [t [a | c | e]]; simpl.
  - destruct (k a); reflexivity.
  - now rewrite app_nil_r.
  - now rewrite app_nil_r.
Qed.

Lemma outcome_bind (m : Run A) (k : A -> Run B) :
  outcome (bind m k)
  = match outcome m with
    | Ret a => outcome (k a)
    | Exit c => Exit c
    | Raise e => Raise e
    end.
Proof.
  destruct m as [t [a | c | e]]; simpl; try reflexivity.
  destruct (k a); reflexivity.
Qed.

(** Code after a [sys.exit] or an exception does not run. *)
Lemma bind_stops (m : Run A) (k : A -> Run B) :
  (forall a, outcome m <> Ret a) ->
  trace (bind m k) = trace m.
Proof.
  intros H. rewrite trace_bind.
  destruct (outcome m) eqn:E; try apply app_nil_r.
  now destruct (H a).
Qed.


End RunFacts.

(** ** Versions *)

Section SemverFacts.

Import Semver.

(** A valid version string starts with a digit: [lstrip('v')] leaves it
    as it is. *)
Lemma parse_lstrip_v (s : string) (a : VersionInfo) :
  parse s = Some a -> PyStr.lstrip "v" s = s.
Proof.
  destruct s as [| c s]; [reflexivity |].
  simpl. destruct (Ascii.eqb_spec c "v") as [-> | _]; [| reflexivity].
  discriminate.
Qed.



Lemma cmp_zip_refl (l : list tag) : cmp_zip l l = Eq.
Proof.
induction l as [| x l IH]; simpl; [reflexivity |].
replace (cmp_prerelease_tag x x) with Eq; [exact IH |].
destruct x as [n | s]; simpl; symmetry.
- apply N.compare_refl.
- pose proof (String.compare_antisym s s) as H.
  destruct (String.compare s s); simpl in H; congruence.
Qed.

(** A version does not exceed itself. *)
Lemma compare_refl (a : VersionInfo) : compare a a = Eq.
Proof.
unfold compare, cmp_tuple, _nat_cmp.
now rewrite !N.compare_refl, cmp_zip_refl, Nat.compare_refl.
Qed.


End SemverFacts.

(** ** The version check *)

Section VersionCheck.

Import Semver.

Variables new old : string.

Lemma validate_version_invalid_new (old_version : pyval) :
  parse (PyStr.lstrip "v" new) = None ->
  validate_version (PyStr new) old_version
  = ([EPrint (InvalidVersion (ValueError (PyStr.lstrip "v" new)))], Exit 1).
Proof.
  intros H. unfold validate_version, VersionInfo_parse; simpl.
  now rewrite H.
Qed.

Lemma validate_version_invalid_old (a : VersionInfo) :
  parse (PyStr.lstrip "v" new) = Some a ->
  parse (PyStr.lstrip "v" old) = None ->
  validate_version (PyStr new) (PyStr old)
  = ([EPrint (InvalidVersion (ValueError (PyStr.lstrip "v" old)))], Exit 1).
Proof.
  intros Ha Hb. unfold validate_version, VersionInfo_parse; simpl.
  now rewrite Ha, Hb.
Qed.

Lemma validate_version_valid (a b : VersionInfo) :
  parse (PyStr.lstrip "v" new) = Some a ->
  parse (PyStr.lstrip "v" old) = Some b ->
  validate_version (PyStr new) (PyStr old)
  = ((if is_not_None (prerelease a)
      then [EPrint (PrereleaseWarning (PyStr new))] else [])
     ++ [EPrint (if le a b
                 then VersionNotAdvanced (PyStr new) (PyStr old)
                 else VersionPassed (PyStr old) (PyStr new))],
     if le a b then Exit 1 else Ret tt)%list.
Proof.
  intros Ha Hb. unfold validate_version, VersionInfo_parse; simpl.
  rewrite Ha, Hb; simpl.
  now destruct (is_not_None (prerelease a)), (le a b).
Qed.

End VersionCheck.



(** C5.  When one of the two strings, after [lstrip('v')], is not a valid
    semantic version, [validate_version] catches the [ValueError] of the
    parser, prints the "invalid semantic version" error naming the
    offending string and leaves through [sys.exit(1)]; no exception leaves
    the function. *)
Theorem validate_version_rejects_malformed (new old : string) :
  Semver.parse (PyStr.lstrip "v" new) = None
  \/ Semver.parse (PyStr.lstrip "v" old) = None ->
  let check := validate_version (PyStr new) (PyStr old) in
  (exists bad : string,
      (bad = PyStr.lstrip "v" new \/ bad = PyStr.lstrip "v" old)
      /\ Semver.parse bad = None
      /\ check = ([EPrint (InvalidVersion (ValueError bad))], Exit 1))
  /\ (forall e : Exn, outcome check <> Raise e).
Proof.
  intros H check.
  assert (E : exists bad : string,
             (bad = PyStr.lstrip "v" new \/ bad = PyStr.lstrip "v" old)
             /\ Semver.parse bad = None
             /\ check = ([EPrint (InvalidVersion (ValueError bad))], Exit 1)).
  { destruct (Semver.parse (PyStr.lstrip "v" new)) as [a |] eqn:Ha.
    - destruct H as [H | H]; [discriminate H |].
      exists (PyStr.lstrip "v" old). repeat split; auto.
      exact (validate_version_invalid_old new old a Ha H).
    - exists (PyStr.lstrip "v" new). repeat split; auto.
      exact (validate_version_invalid_new new (PyStr old) Ha). }
  split; [exact E |].
  destruct E as (bad & _ & _ & ->). intros e; discriminate.
Qed.

(** The check of C5 at the candidate ["not-a-version"]. *)
Lemma validate_version_rejects_malformed_witness :
  Semver.parse (PyStr.lstrip "v" "not-a-version") = None
  /\ outcome (validate_version (PyStr "not-a-version") (PyStr "1.0.0"))
     = Exit 1%Z.
Proof.
  split; [reflexivity |].
  destruct (validate_version_rejects_malformed "not-a-version" "1.0.0")
    as ((bad & _ & _ & E) & _).
  - left; reflexivity.
  - rewrite E. reflexivity.
Defined.




(** ** Pushes that are not tag pushes *)

(** C8.  On a push event whose ref is missing or does not start with
    [refs/tags/], the run prints its two lines and returns: it probes no
    file, starts no linter, sends no request, and the process ends with
    status 0. *)
Theorem non_tag_push_is_skipped (w : World) :
  environ w "GITHUB_EVENT_NAME" = Some "push" ->
  (forall ref : string,
      environ w "GITHUB_REF" = Some ref ->
      PyStr.startswith ref "refs/tags/" = false) ->
  main w = ([EPrint HandlingTagPush; EPrint NotATagPush], Ret tt)
  /\ effects (trace (main w)) = []
  /\ exit_code (main w) = 0%Z.
Proof.
  intros Hev Href.
  assert (E : main w = ([EPrint HandlingTagPush; EPrint NotATagPush], Ret tt)).
  { unfold main, is_event, GITHUB_EVENT_NAME, os_getenv. rewrite Hev; simpl.
    unfold handle_tag_push, GITHUB_REF, os_getenv.
    destruct (environ w "GITHUB_REF") as [ref |] eqn:R; [| reflexivity].
    rewrite (Href ref eq_refl), orb_true_r. reflexivity. }
  rewrite E. repeat split.
Qed.

(** The run of C8 on a push to [refs/heads/main]. *)
Lemma non_tag_push_is_skipped_witness :
  let w := Scenario.push "refs/heads/main" (Scenario.forge_ok Scenario.no_release) in
  effects (trace (main w)) = [] /\ exit_code (main w) = 0%Z.
Proof.
  apply (non_tag_push_is_skipped
           (Scenario.push "refs/heads/main"
              (Scenario.forge_ok Scenario.no_release))).
  - reflexivity.
  - intros ref H. vm_compute in H. injection H as <-. reflexivity.
Defined.

(** ** The tag of a release *)

Lemma lstrip_head (c : ascii) (s : string) :
  match PyStr.lstrip c s with
  | String x _ => x <> c
  | EmptyString => True
  end.
Proof.
  induction s as [| a s IH]; simpl; [exact I |].
  destruct (Ascii.eqb_spec a c); [exact IH | assumption].
Qed.

Lemma lstrip_not_startswith (c : ascii) (s : string) :
  PyStr.startswith (PyStr.lstrip c s) (String c EmptyString) = false.
Proof.
  pose proof (lstrip_head c s) as H. unfold PyStr.startswith.
  destruct (PyStr.lstrip c s) as [| x t]; simpl; [reflexivity |].
  destruct (ascii_dec c x) as [-> | _]; [now destruct H | reflexivity].
Qed.

(** What [create_release] does with a version string: an exception when the
    stripped string is not a version, one request otherwise. *)
Lemma create_release_run (w : World) (version : string) :
  let stripped := PyStr.lstrip "v" version in
  match Semver.parse stripped with
  | None => create_release w (PyStr version) = ([], Raise (ValueError stripped))
  | Some x =>
      let q := release_request stripped x in
      create_release w (PyStr version)
      = match forge w q with
        | NoAnswer => ([ERequest q], Raise ConnectionError)
        | Answer r =>
            if (status_code r =? 201)%Z
            then ([ERequest q; EPrint (ReleaseCreated ("v" ++ stripped))],
                  Ret tt)
            else ([ERequest q;
                   EPrint (ReleaseError (status_code r) (text r))], Exit 1%Z)
        end
  end.
Proof.
  intros stripped.
  destruct (Semver.parse stripped) as [x |] eqn:P.
  - intros q. unfold create_release, VersionInfo_parse, lstrip_v.
    fold stripped. unfold bind at 1. cbn [ret app]. rewrite P.
    unfold bind at 1. cbn [ret app].
    change (PostReleases _) with q.
    unfold requests, bind, emit, ret, print, sys_exit.
    destruct (forge w q) as [r |]; [| reflexivity].
    now destruct (status_code r =? 201)%Z.
  - unfold create_release, VersionInfo_parse, lstrip_v.
    fold stripped. unfold bind at 1. cbn [ret app]. now rewrite P.
Qed.

(** C10.  Every release request [create_release] sends carries the tag
    ["v"] followed by the version stripped of all its leading ['v']s, and
    it does send one when the stripped string is a version; that tag has
    one leading ['v'] and no second one.  The versions ["1.2.3"] and
    ["v1.2.3"] give the same run, with the tag ["v1.2.3"]. *)
Theorem create_release_tag (w : World) (version : string) :
  let tag := "v" ++ PyStr.lstrip "v" version in
  let run := create_release w (PyStr version) in
  (forall d : ReleaseData,
      In (ERequest (PostReleases d)) (trace run) -> tag_name d = tag)
  /\ (forall x : Semver.VersionInfo,
         Semver.parse (PyStr.lstrip "v" version) = Some x ->
         exists d : ReleaseData,
           hd_error (trace run) = Some (ERequest (PostReleases d))
           /\ tag_name d = tag)
  /\ (exists rest : string,
         tag = String "v" rest /\ PyStr.startswith rest "v" = false)
  /\ (create_release w (PyStr "1.2.3") = create_release w (PyStr "v1.2.3")
      /\ "v" ++ PyStr.lstrip "v" "1.2.3" = "v1.2.3"
      /\ "v" ++ PyStr.lstrip "v" "v1.2.3" = "v1.2.3").
Proof.
  intros tag run.
  pose proof (create_release_run w version) as E; cbv zeta in E.
  fold run in E.
  split; [| split; [| split]].
  - intros d Hin.
    destruct (Semver.parse (PyStr.lstrip "v" version)) as [x |];
      rewrite E in Hin; [| now destruct Hin].
    unfold release_request in Hin.
    destruct (forge w _) as [r |]; [destruct (status_code r =? 201)%Z |];
      simpl in Hin;
      repeat match goal with
        | H : _ \/ _ |- _ => destruct H as [H | H]
        | H : False |- _ => destruct H
        | H : ERequest _ = ERequest _ |- _ => injection H as <-; reflexivity
        | H : EPrint _ = ERequest _ |- _ => discriminate H
        end.
  - intros x Hx. rewrite Hx in E. rewrite E.
    unfold release_request.
    destruct (forge w _) as [r |]; [destruct (status_code r =? 201)%Z |];
      (eexists; split; reflexivity).
  - exists (PyStr.lstrip "v" version). split; [reflexivity |].
    apply lstrip_not_startswith.
  - repeat split.
Qed.

(** The tag of C10 in a run that publishes ["v2.0.0"] from a pull request. *)
Lemma create_release_tag_witness :
  let w := Scenario.pull_request "2.0.0" "1.9.0" true
             (Scenario.forge_ok Scenario.no_release) in
  exists d : ReleaseData,
    hd_error (trace (create_release w (PyStr "v2.0.0")))
    = Some (ERequest (PostReleases d))
    /\ tag_name d = "v2.0.0".
Proof.
  apply (create_release_tag
           (Scenario.pull_request "2.0.0" "1.9.0" true
              (Scenario.forge_ok Scenario.no_release))
           "v2.0.0")
    with (x := Semver.mkVersion 2 0 0 None None).
  reflexivity.
Defined.

(** ** The forge client *)

Section ForgeClient.

Variable w : World.

Lemma get_latest_release_version_run :
  get_latest_release_version w
  = match forge w GetLatestRelease with
    | NoAnswer => ([ERequest GetLatestRelease], Raise ConnectionError)
    | Answer r =>
        if (status_code r =? 404)%Z
        then ([ERequest GetLatestRelease; EPrint NoReleases],
              Ret (PyStr "0.0.0"))
        else if ((400 <=? status_code r) && (status_code r <? 600))%Z
        then ([ERequest GetLatestRelease], Raise (HTTPError (status_code r)))
        else
          bind (emit (ERequest GetLatestRelease))
            (fun _ => bind (json r) (fun body => getitem body "tag_name"))
    end.
Proof.
  unfold get_latest_release_version, requests, raise_for_status.
  destruct (forge w GetLatestRelease) as [r |]; [| reflexivity].
  simpl.
  destruct (status_code r =? 404)%Z; [reflexivity |].
  destruct ((400 <=? status_code r) && (status_code r <? 600))%Z;
    [reflexivity |].
  simpl. now destruct (bind (json r) _).
Qed.

Lemma create_pr_run (new_version : string) :
  let q := pulls_request w new_version in
  create_pr w new_version
  = match forge w q with
    | NoAnswer => ([ERequest q], Raise ConnectionError)
    | Answer r =>
        if (status_code r =? 201)%Z
        then
          bind (emit (ERequest q))
            (fun _ =>
               bind (json r)
                 (fun pr =>
                    bind (getitem pr "number")
                      (fun number =>
                         bind (print (PrCreated number))
                           (fun _ => ret number))))
        else
          let dup :=
            PyStr.contains "A pull request already exists" (text r) in
          ((ERequest q
            :: EPrint (PrCreateError (status_code r) (text r))
            :: (if dup then [EPrint PrExists] else []))%list,
           Exit (if dup then 0 else 1)%Z)
    end.
Proof.
  intros q. unfold create_pr. change (PostPulls _) with q.
  unfold requests.
  destruct (forge w q) as [r |]; [| reflexivity].
  cbn [bind emit ret app].
  destruct (status_code r =? 201)%Z.
  - now destruct (bind (json r) _).
  - cbv zeta. unfold print, emit, when, sys_exit, ret, bind.
    now destruct (PyStr.contains _ (text r)).
Qed.

Lemma merge_pr_run (pr_number : pyval) :
  let q := PutMerge pr_number in
  merge_pr w pr_number
  = match forge w q with
    | NoAnswer => ([ERequest q], Raise ConnectionError)
    | Answer r =>
        if (status_code r =? 200)%Z
        then ([ERequest q; EPrint (PrMerged pr_number)], Ret tt)
        else ([ERequest q;
               EPrint (MergeError pr_number (status_code r) (text r))],
              Exit 1%Z)
    end.
Proof.
  intros q. unfold merge_pr, requests. fold q.
  destruct (forge w q) as [r |]; [| reflexivity].
  cbn [bind emit ret app].
  now destruct (status_code r =? 200)%Z.
Qed.

End ForgeClient.

(** C9, as the code has it.  [create_pr], [merge_pr] and [create_release]
    turn every answer that does not carry their success status into a
    printed diagnostic followed by [sys.exit] (status 1, or 0 when the
    forge reports that the pull request exists).
    [get_latest_release_version] turns the status 404 into the baseline
    ["0.0.0"] and leaves every other status from 400 to 599 to
    [raise_for_status], whose [HTTPError] nobody catches.  When the forge
    gives no answer at all, each of the four lets the exception of
    [requests] through. *)
Theorem forge_client_failures (w : World) :
  (forall (v : string) (r : Response),
      forge w (pulls_request w v) = Answer r ->
      status_code r <> 201%Z ->
      In (EPrint (PrCreateError (status_code r) (text r)))
         (trace (create_pr w v))
      /\ outcome (create_pr w v)
         = Exit (if PyStr.contains "A pull request already exists" (text r)
                 then 0 else 1)%Z)
  /\ (forall (n : pyval) (r : Response),
         forge w (PutMerge n) = Answer r ->
         status_code r <> 200%Z ->
         merge_pr w n
         = ([ERequest (PutMerge n);
             EPrint (MergeError n (status_code r) (text r))], Exit 1%Z))
  /\ (forall (v : string) (x : Semver.VersionInfo) (r : Response),
         Semver.parse (PyStr.lstrip "v" v) = Some x ->
         forge w (release_request (PyStr.lstrip "v" v) x) = Answer r ->
         status_code r <> 201%Z ->
         create_release w (PyStr v)
         = ([ERequest (release_request (PyStr.lstrip "v" v) x);
             EPrint (ReleaseError (status_code r) (text r))], Exit 1%Z))
  /\ (forall r : Response,
         forge w GetLatestRelease = Answer r ->
         status_code r = 404%Z ->
         get_latest_release_version w
         = ([ERequest GetLatestRelease; EPrint NoReleases],
            Ret (PyStr "0.0.0")))
  /\ (forall r : Response,
         forge w GetLatestRelease = Answer r ->
         status_code r <> 404%Z ->
         (400 <= status_code r < 600)%Z ->
         get_latest_release_version w
         = ([ERequest GetLatestRelease], Raise (HTTPError (status_code r))))
  /\ (forge w GetLatestRelease = NoAnswer ->
      outcome (get_latest_release_version w) = Raise ConnectionError)
  /\ (forall v : string,
         forge w (pulls_request w v) = NoAnswer ->
         outcome (create_pr w v) = Raise ConnectionError)
  /\ (forall n : pyval,
         forge w (PutMerge n) = NoAnswer ->
         outcome (merge_pr w n) = Raise ConnectionError)
  /\ (forall (v : string) (x : Semver.VersionInfo),
         Semver.parse (PyStr.lstrip "v" v) = Some x ->
         forge w (release_request (PyStr.lstrip "v" v) x) = NoAnswer ->
         outcome (create_release w (PyStr v)) = Raise ConnectionError).
Proof.
  repeat apply conj.
  - intros v r Hf Hs. rewrite create_pr_run; cbv zeta. rewrite Hf.
    apply Z.eqb_neq in Hs. rewrite Hs. split; [right; now left | reflexivity].
  - intros n r Hf Hs. rewrite merge_pr_run; cbv zeta. rewrite Hf.
    apply Z.eqb_neq in Hs. now rewrite Hs.
  - intros v x r Hp Hf Hs.
    pose proof (create_release_run w v) as E; cbv zeta in E.
    rewrite Hp, Hf in E. apply Z.eqb_neq in Hs. now rewrite Hs in E.
  - intros r Hf Hs. rewrite get_latest_release_version_run, Hf.
    apply Z.eqb_eq in Hs. now rewrite Hs.
  - intros r Hf Hs Hr. rewrite get_latest_release_version_run, Hf.
    apply Z.eqb_neq in Hs. rewrite Hs.
    replace ((400 <=? status_code r) && (status_code r <? 600))%Z with true;
      [reflexivity |].
    symmetry. apply andb_true_iff. split; [apply Z.leb_le | apply Z.ltb_lt]; lia.
  - intros Hf. now rewrite get_latest_release_version_run, Hf.
  - intros v Hf. rewrite create_pr_run; cbv zeta. now rewrite Hf.
  - intros n Hf. rewrite merge_pr_run; cbv zeta. now rewrite Hf.
  - intros v x Hp Hf.
    pose proof (create_release_run w v) as E; cbv zeta in E.
    rewrite Hp, Hf in E. now rewrite E.
Qed.

(** The merge of C9 against a forge that answers 405. *)
Lemma forge_client_failures_witness :
  let w := Scenario.pull_request "2.0.0" "1.9.0" true Scenario.forge_no_merge in
  merge_pr w (PyStr "12")
  = ([ERequest (PutMerge (PyStr "12"));
      EPrint (MergeError (PyStr "12") 405 "Pull Request is not mergeable")],
     Exit 1%Z).
Proof.
  destruct (forge_client_failures
              (Scenario.pull_request "2.0.0" "1.9.0" true
                 Scenario.forge_no_merge))
    as (_ & Hmerge & _).
  apply (Hmerge (PyStr "12")
           (mkResponse 405 "Pull Request is not mergeable" None)).
  - reflexivity.
  - discriminate.
Defined.

(** C9 as stated fails: on the status 500 [get_latest_release_version]
    prints nothing and ends in the [HTTPError] of [raise_for_status], and
    the whole run ends in that exception; against a forge that cannot be
    reached, [merge_pr] ends in the exception of [requests]. *)
Lemma forge_client_uncaught_exceptions :
  let w := Scenario.push "refs/tags/v1.0.0"
             (Scenario.forge_ok Scenario.server_error) in
  let u := Scenario.pull_request "2.0.0" "1.9.0" true Scenario.unreachable in
  get_latest_release_version w
  = ([ERequest GetLatestRelease], Raise (HTTPError 500))
  /\ outcome (main w) = Raise (HTTPError 500)
  /\ merge_pr u (PyStr "12")
     = ([ERequest (PutMerge (PyStr "12"))], Raise ConnectionError)
  /\ outcome (main u) = Raise ConnectionError.
Proof. repeat split. Qed.

(** ** The baseline of a first release *)




(** ** Whole runs *)

(** The properties of whole runs are proved by running [main] on an
    arbitrary world: the run is unfolded to the tests it makes on the world,
    and each test is decided both ways, outermost first, so that every path
    through the script is visited once with its trace and its outcome. *)

Ltac head_scrutinee x :=
  lazymatch x with
  | match ?y with _ => _ end => head_scrutinee y
  | _ => x
  end.

Ltac unfold_script_in E :=
  unfold main, handle_pull_request, handle_tag_push, is_event,
    validate_version, validate_library_metadata, validate_code_style,
    get_latest_release_version, create_pr, merge_pr, create_release,
    GITHUB_EVENT_NAME, GITHUB_REF, LINT_MODE, SOURCE_BRANCH, TARGET_BRANCH,
    os_getenv, Path_exists, subprocess_run, requests, raise_for_status, json,
    getitem, lstrip_v, VersionInfo_parse, of_env,
    bind, when, try_except, print, emit, ret, sys_exit, raise in E.

Ltac exec_step E :=
  lazymatch type of E with
  | _ = match ?x with _ => _ end =>
      let y := head_scrutinee x in
      destruct y eqn:?; cbn beta iota zeta delta [all_str app fst snd] in E
  end.

(** [E : run = main w] becomes [run = (events, outcome)], once per path. *)
Ltac exec E :=
  unfold_script_in E;
  cbn beta iota zeta delta [all_str app fst snd] in E;
  repeat exec_step E.

(** [H : In e events] for explicit [events]: the cases where [e] is not the
    event are dropped. *)
Ltac in_cases H :=
  cbn [In] in H;
  repeat match type of H with
    | _ \/ _ => destruct H as [H | H]
    | False => destruct H
    | _ = _ => first [discriminate H | clear H]
    end.

(** The same, keeping what the equation says about a request. *)
Ltac in_requests H :=
  cbn [In] in H;
  repeat match type of H with
    | _ \/ _ => destruct H as [H | H]
    | False => destruct H
    | ERequest (PostPulls ?a) = ERequest (PostPulls ?b) =>
        let K := fresh "K" in
        assert (K : a = b) by congruence; clear H; rename K into H
    | _ = ERequest _ => discriminate H
    end.

Ltac same_answer :=
  repeat match goal with
    | H1 : forge ?w ?q = _, H2 : forge ?w ?q = _ |- _ =>
        rewrite H1 in H2; first [discriminate H2 | injection H2 as H2; subst]
    end.

Ltac rewrite_cases :=
  repeat match goal with
    | H : ?l = _ |- context [?l] => rewrite H
    end.

Ltac rewrite_cases_in X :=
  repeat match goal with
    | H : ?l = _ |- _ =>
        tryif constr_eq H X then fail
        else match type of X with context [l] => rewrite H in X end
    end.






(** C3.  When a run sends the request that opens the pull request and the
    forge answers it with a status other than 201, the process ends with
    status 0 if the body of the answer contains "A pull request already
    exists" and with status 1 otherwise; either way the run sends neither a
    merge nor a release. *)
Theorem pr_creation_refused (w : World) (d : PullData) (r : Response) :
  In (ERequest (PostPulls d)) (trace (main w)) ->
  forge w (PostPulls d) = Answer r ->
  status_code r <> 201%Z ->
  exit_code (main w)
  = (if PyStr.contains "A pull request already exists" (text r)
     then 0 else 1)%Z
  /\ mutations (trace (main w)) = [].
Proof.
  intros Hin Hf Hs.
  remember (main w) as run eqn:E.
  exec E.
  all: subst run; unfold exit_code, outcome, trace in *; cbn [fst snd] in *;
    in_requests Hin.
  all: subst d; same_answer.
  all: try match goal with
         | H : (status_code _ =? 201)%Z = true |- _ =>
             apply Z.eqb_eq in H; contradiction
         end.
  all: match goal with
       | H : PyStr.contains _ _ = _ |- _ => rewrite H
       end; split; reflexivity.
Qed.

(** The run of C3 on the tag [v1.0.0] against a forge that answers 422
    with "A pull request already exists". *)
Lemma pr_creation_refused_witness :
  let w := Scenario.push "refs/tags/v1.0.0" Scenario.forge_duplicate in
  exit_code (main w) = 0%Z /\ mutations (trace (main w)) = [].
Proof.
  apply (pr_creation_refused
           (Scenario.push "refs/tags/v1.0.0" Scenario.forge_duplicate)
           (mkPullData "Release: v1.0.0" (Some "develop") (Some "main")
              "Automated release for version v1.0.0.")
           (mkResponse 422
              "Validation Failed: A pull request already exists for develop."
              None)).
  - cbn. repeat (first [left; reflexivity | right]).
  - reflexivity.
  - discriminate.
Defined.




(** ** The end-to-end scenarios *)

(** Pull request from ["1.9.0"] to ["2.0.0"], metadata present, style
    passing: merge, then release, and [main] returns. *)
Example scenario_pull_request :
  let w := Scenario.pull_request "2.0.0" "1.9.0" true
             (Scenario.forge_ok Scenario.no_release) in
  effects (trace (main w))
  = [EExists "library.properties";
     ERun ["arduino-lint"; "--library-manager"; "update"];
     ERequest (PutMerge (PyStr "12"));
     ERequest (release_request "2.0.0" (Semver.mkVersion 2 0 0 None None))]
  /\ outcome (main w) = Ret tt.
Proof. split; reflexivity. Qed.

(** First tag [v0.1.0] of a repository without releases: the baseline is
    ["0.0.0"], the pull request is opened and merged, the release
    published. *)
Example scenario_first_tag :
  let w := Scenario.push "refs/tags/v0.1.0"
             (Scenario.forge_ok Scenario.no_release) in
  effects (trace (main w))
  = [ERequest GetLatestRelease;
     EExists "library.properties";
     ERun ["arduino-lint"; "--library-manager"; "update"];
     ERequest (pulls_request w "v0.1.0");
     ERequest (PutMerge (PyInt 7));
     ERequest (release_request "0.1.0" (Semver.mkVersion 0 1 0 None None))]
  /\ outcome (main w) = Ret tt.
Proof. split; reflexivity. Qed.

(** Tag [v1.0.0-rc.1] after the release [v0.9.0]: the warning is printed
    and the release is marked as a pre-release. *)
Example scenario_prerelease_tag :
  let w := Scenario.push "refs/tags/v1.0.0-rc.1"
             (Scenario.forge_ok (Scenario.release "v0.9.0")) in
  In (EPrint (PrereleaseWarning (PyStr "v1.0.0-rc.1"))) (trace (main w))
  /\ mutations (trace (main w))
     = [PutMerge (PyInt 7);
        release_request "1.0.0-rc.1"
          (Semver.mkVersion 1 0 0 (Some "rc.1") None)]
  /\ outcome (main w) = Ret tt.
Proof.
split; [cbn; repeat (first [left; reflexivity | right]) | split; reflexivity].
Qed.

(** An event that is neither a pull request nor a push is skipped. *)
Example scenario_other_event :
  let w := mkWorld (Scenario.env_of [("GITHUB_EVENT_NAME", "schedule")])
             (fun _ => true) Scenario.lint_passes Scenario.unreachable in
  main w = ([EPrint (UnsupportedEvent (Some "schedule"))], Ret tt).
Proof. reflexivity. Qed.

(** * Further properties *)

(** ** Dispatch and parameters *)

(** An event that is neither a pull request nor a push, or no event name at
    all, gets one warning and a normal return: nothing is validated and
    nothing is sent. *)
Theorem unsupported_event_is_skipped (w : World) :
  (forall e : string,
      environ w "GITHUB_EVENT_NAME" = Some e ->
      e <> "pull_request" /\ e <> "push") ->
  main w = ([EPrint (UnsupportedEvent (environ w "GITHUB_EVENT_NAME"))], Ret tt)
  /\ exit_code (main w) = 0%Z.
Proof.
  intros H.
  assert (E : main w
              = ([EPrint (UnsupportedEvent (environ w "GITHUB_EVENT_NAME"))],
                 Ret tt)).
  { unfold main, is_event, GITHUB_EVENT_NAME, os_getenv.
    destruct (environ w "GITHUB_EVENT_NAME") as [e |] eqn:Ev; [| reflexivity].
    destruct (H e eq_refl) as [Hpr Hpush].
    apply String.eqb_neq in Hpr, Hpush. now rewrite Hpr, Hpush. }
  now rewrite E.
Qed.

Lemma unsupported_event_is_skipped_witness :
  let w := mkWorld (Scenario.env_of [("GITHUB_EVENT_NAME", "schedule")])
             (fun _ => true) Scenario.lint_passes Scenario.unreachable in
  exit_code (main w) = 0%Z.
Proof.
  apply (unsupported_event_is_skipped
           (mkWorld (Scenario.env_of [("GITHUB_EVENT_NAME", "schedule")])
              (fun _ => true) Scenario.lint_passes Scenario.unreachable)).
  intros e H. vm_compute in H. injection H as <-. split; discriminate.
Defined.

(** On a pull-request event with [pr_version], [main_version] or
    [PR_NUMBER] unset or empty, the run prints the error and leaves through
    [sys.exit(1)] before any check. *)
Theorem missing_parameters_abort (w : World) :
  environ w "GITHUB_EVENT_NAME" = Some "pull_request" ->
  PyStr.truthy (environ w "pr_version") = false
  \/ PyStr.truthy (environ w "main_version") = false
  \/ PyStr.truthy (environ w "PR_NUMBER") = false ->
  main w = ([EPrint HandlingPullRequest; EPrint MissingParameters], Exit 1%Z).
Proof.
  intros Hev H.
  unfold main, is_event, GITHUB_EVENT_NAME, os_getenv. rewrite Hev; simpl.
  unfold handle_pull_request, os_getenv.
  replace (PyStr.truthy (environ w "pr_version")
           && PyStr.truthy (environ w "main_version")
           && PyStr.truthy (environ w "PR_NUMBER")) with false; [reflexivity |].
  symmetry. destruct H as [H | [H | H]]; rewrite H.
  - reflexivity.
  - now rewrite andb_false_r.
  - now rewrite andb_false_r.
Qed.

Lemma missing_parameters_abort_witness :
  let w := mkWorld
             (Scenario.env_of [("GITHUB_EVENT_NAME", "pull_request");
                               ("pr_version", "2.0.0");
                               ("main_version", "1.9.0");
                               ("PR_NUMBER", "")])
             (fun _ => true) Scenario.lint_passes
             (Scenario.forge_ok Scenario.no_release) in
  main w = ([EPrint HandlingPullRequest; EPrint MissingParameters], Exit 1%Z).
Proof.
  apply missing_parameters_abort; [reflexivity | right; right; reflexivity].
Defined.

(** ** Whole runs, continued *)

Ltac prefix_of_kinds :=
  first [ exists 0%nat; reflexivity | exists 1%nat; reflexivity
        | exists 2%nat; reflexivity | exists 3%nat; reflexivity
        | exists 4%nat; reflexivity ].

Ltac event_cases H :=
  unfold is_event, GITHUB_EVENT_NAME, os_getenv in H;
  rewrite_cases_in H; try discriminate H.

Ltac find_event := cbn [In]; repeat (first [left; reflexivity | right]).

Ltac in_release H :=
  cbn [In] in H;
  repeat match type of H with
    | _ \/ _ => destruct H as [H | H]
    | False => destruct H
    | ERequest (PostReleases ?a) = ERequest (PostReleases ?b) =>
        let K := fresh "K" in
        assert (K : a = b) by congruence; clear H; rename K into H
    | _ = ERequest _ => discriminate H
    end.

Ltac in_merge H :=
  cbn [In] in H;
  repeat match type of H with
    | _ \/ _ => destruct H as [H | H]
    | False => destruct H
    | ERequest (PutMerge ?a) = ERequest (PutMerge ?b) =>
        let K := fresh "K" in
        assert (K : a = b) by congruence; clear H; rename K into H
    | _ = ERequest _ => discriminate H
    end.

(** The process ends with status 0 or 1, whatever the world. *)
Theorem exit_code_zero_or_one (w : World) :
  exit_code (main w) = 0%Z \/ exit_code (main w) = 1%Z.
Proof.
  remember (main w) as run eqn:E.
  exec E.
  all: subst run; unfold exit_code, outcome; cbn [snd]; auto.
Qed.

(** The requests of a run come in a fixed order and once each: merge then
    release on a pull-request event, which never asks for the latest
    release and never opens a pull request; latest release, pull request,
    merge, release otherwise.  A run may stop after any of them. *)
Theorem requests_in_order (w : World) :
  let t := trace (main w) in
  (is_event w "pull_request" = true ->
   exists n : nat, kinds t = firstn n [Merge; Release])
  /\ (is_event w "pull_request" = false ->
      exists n : nat, kinds t = firstn n [Latest; Pulls; Merge; Release]).
Proof.
  intros t; subst t.
  remember (main w) as run eqn:E.
  exec E.
  all: subst run; unfold trace, kinds, requests_sent;
    cbn [fst map flat_map request_of kind_of app].
  all: split; intros Hk; event_cases Hk; prefix_of_kinds.
Qed.

Lemma requests_in_order_witness :
  let w := Scenario.push "refs/tags/v0.1.0"
             (Scenario.forge_ok Scenario.no_release) in
  is_event w "pull_request" = false
  /\ exists n : nat,
      kinds (trace (main w)) = firstn n [Latest; Pulls; Merge; Release].
Proof.
  split; [reflexivity |].
  destruct (requests_in_order
              (Scenario.push "refs/tags/v0.1.0"
                 (Scenario.forge_ok Scenario.no_release)))
    as (_ & Hpush).
  apply Hpush. reflexivity.
Defined.

(** The pull request a run merges is the one named by [PR_NUMBER] on a
    pull-request event, and otherwise the one whose number the forge gave in
    its 201 answer to the run's own request to open it. *)
Theorem merge_target (w : World) (n : pyval) :
  In (ERequest (PutMerge n)) (trace (main w)) ->
  (is_event w "pull_request" = true
   /\ n = of_env (environ w "PR_NUMBER"))
  \/ (is_event w "pull_request" = false
      /\ exists (d : PullData) (r : Response) (body : list (string * pyval)),
        In (ERequest (PostPulls d)) (trace (main w))
        /\ forge w (PostPulls d) = Answer r
        /\ status_code r = 201%Z
        /\ json_body r = Some (PyDict body)
        /\ lookup "number" body = Some n).
Proof.
  intros Hin.
  remember (main w) as run eqn:E.
  exec E.
  all: subst run; unfold trace in *; cbn [fst] in *; in_merge Hin.
  all: subst n.
  all: unfold is_event, GITHUB_EVENT_NAME, os_getenv, of_env; rewrite_cases.
  all: first
         [ left; split; reflexivity
         | right; split; [reflexivity |];
           eexists; eexists; eexists;
           split; [find_event |];
           split; [eassumption |];
           split; [now apply Z.eqb_eq |];
           split; [eassumption | eassumption] ].
Qed.

Lemma merge_target_witness :
  let w := Scenario.pull_request "2.0.0" "1.9.0" true
             (Scenario.forge_ok Scenario.no_release) in
  In (ERequest (PutMerge (PyStr "12"))) (trace (main w))
  /\ PyStr "12" = of_env (environ w "PR_NUMBER").
Proof.
  split; [find_event |].
  destruct (merge_target
              (Scenario.pull_request "2.0.0" "1.9.0" true
                 (Scenario.forge_ok Scenario.no_release))
              (PyStr "12"))
    as [[_ H] | [H _]].
  - find_event.
  - exact H.
  - discriminate H.
Defined.

(** What a run publishes is what it validated: a release request carries
    the tag of a version for which the run printed "validation passed",
    after the style check passed; it is never a draft, and it is marked as
    a pre-release exactly when the run printed the pre-release warning for
    that version. *)
Theorem release_is_validated (w : World) (d : ReleaseData) :
  let t := trace (main w) in
  In (ERequest (PostReleases d)) t ->
  exists (new : string) (old : pyval),
    In (EPrint (VersionPassed old (PyStr new))) t
    /\ In (EPrint StylePassed) t
    /\ tag_name d = "v" ++ PyStr.lstrip "v" new
    /\ draft d = false
    /\ (is_prerelease d = true
        <-> In (EPrint (PrereleaseWarning (PyStr new))) t).
Proof.
  intros t Hin; subst t.
  remember (main w) as run eqn:E.
  exec E.
  all: subst run; unfold trace in *; cbn [fst] in *; in_release Hin.
  all: subst d; eexists; eexists.
  all: split; [find_event |].
  all: split; [find_event |].
  all: split; [reflexivity |].
  all: split; [reflexivity |].
  all: cbn [is_prerelease]; split;
    [ first [discriminate | intros _; find_event]
    | first [reflexivity | intros Hw; in_cases Hw] ].
Qed.

Lemma release_is_validated_witness :
  let w := Scenario.push "refs/tags/v1.0.0-rc.1"
             (Scenario.forge_ok (Scenario.release "v0.9.0")) in
  exists (new : string) (old : pyval),
    In (EPrint (VersionPassed old (PyStr new))) (trace (main w))
    /\ In (EPrint StylePassed) (trace (main w))
    /\ "v1.0.0-rc.1" = "v" ++ PyStr.lstrip "v" new
    /\ false = false
    /\ (true = true
        <-> In (EPrint (PrereleaseWarning (PyStr new))) (trace (main w))).
Proof.
  apply (release_is_validated
           (Scenario.push "refs/tags/v1.0.0-rc.1"
              (Scenario.forge_ok (Scenario.release "v0.9.0")))
           (mkReleaseData "v1.0.0-rc.1" "Release v1.0.0-rc.1"
              "Automated release for version v1.0.0-rc.1." false true)).
  find_event.
Defined.

(** A process that ends with status 0 has done one of three things:
    nothing at all besides printing, or stopped at a pull request that
    exists already without merging or releasing, or merged and released
    with both calls answered by their success status. *)
Theorem exit_zero_means (w : World) :
  exit_code (main w) = 0%Z ->
  let t := trace (main w) in
  effects t = []
  \/ (In (EPrint PrExists) t /\ mutations t = [])
  \/ (exists (n : pyval) (d : ReleaseData),
         mutations t = [PutMerge n; PostReleases d]
         /\ answered_with w (PutMerge n) 200 = true
         /\ answered_with w (PostReleases d) 201 = true).
Proof.
  intros H0 t; subst t.
  remember (main w) as run eqn:E.
  exec E.
  all: subst run; unfold exit_code, outcome, trace, effects in *;
    cbn [fst snd mutations flat_map mutation_of app filter is_effect] in *;
    try discriminate H0.
  all: first
         [ left; reflexivity
         | right; left; split; [find_event | reflexivity]
         | right; right; eexists; eexists;
           split; [reflexivity |];
           split; unfold answered_with; rewrite_cases; reflexivity ].
Qed.

Lemma exit_zero_means_witness :
  let w := Scenario.push "refs/tags/v1.0.0" Scenario.forge_duplicate in
  exit_code (main w) = 0%Z
  /\ (effects (trace (main w)) = []
      \/ (In (EPrint PrExists) (trace (main w))
          /\ mutations (trace (main w)) = [])
      \/ (exists (n : pyval) (d : ReleaseData),
             mutations (trace (main w)) = [PutMerge n; PostReleases d]
             /\ answered_with w (PutMerge n) 200 = true
             /\ answered_with w (PostReleases d) 201 = true)).
Proof.
  split; [reflexivity |].
  apply (exit_zero_means
           (Scenario.push "refs/tags/v1.0.0" Scenario.forge_duplicate)).
  reflexivity.
Defined.

(** Without the [lint-mode] input no run starts the linter, merges or
    releases: a run that gets past the metadata check ends in the
    [TypeError] of [subprocess.run]. *)
Theorem lint_mode_unset_blocks_release (w : World) :
  environ w "INPUT_LINT-MODE" = None ->
  let t := trace (main w) in
  (forall args : list string, ~ In (ERun args) t)
  /\ mutations t = []
  /\ (In (EPrint MetadataFound) t -> outcome (main w) = Raise TypeError).
Proof.
  intros Hmode t; subst t.
  remember (main w) as run eqn:E.
  exec E.
  all: try discriminate Hmode.
  all: try match goal with
         | H : environ _ "INPUT_LINT-MODE" = Some _ |- _ =>
             rewrite Hmode in H; discriminate H
         end.
  all: subst run; unfold outcome, trace;
    cbn [fst snd mutations flat_map mutation_of app].
  all: split; [intros ? Hin; in_cases Hin |].
  all: split; [reflexivity |].
  all: intros Hin; in_cases Hin; reflexivity.
Qed.

Lemma lint_mode_unset_blocks_release_witness :
  let w := mkWorld
             (Scenario.env_of [("GITHUB_EVENT_NAME", "pull_request");
                               ("pr_version", "2.0.0");
                               ("main_version", "1.9.0");
                               ("PR_NUMBER", "12")])
             (fun _ => true) Scenario.lint_passes
             (Scenario.forge_ok Scenario.no_release) in
  mutations (trace (main w)) = [] /\ outcome (main w) = Raise TypeError.
Proof.
  split; [reflexivity |].
  destruct (lint_mode_unset_blocks_release
              (mkWorld
                 (Scenario.env_of [("GITHUB_EVENT_NAME", "pull_request");
                                   ("pr_version", "2.0.0");
                                   ("main_version", "1.9.0");
                                   ("PR_NUMBER", "12")])
                 (fun _ => true) Scenario.lint_passes
                 (Scenario.forge_ok Scenario.no_release)))
    as (_ & _ & H).
  - reflexivity.
  - apply H. find_event.
Defined.

(** ** The style check *)




(** ** What the forge client returns *)

(** [get_latest_release_version] returns a value in two cases only: the
    baseline ["0.0.0"] on the status 404, and the ["tag_name"] entry of a
    JSON object received with a status outside 400..599. *)
Theorem get_latest_release_version_returns (w : World) (v : pyval) :
  outcome (get_latest_release_version w) = Ret v
  <-> exists r : Response,
      forge w GetLatestRelease = Answer r
      /\ ((status_code r = 404%Z /\ v = PyStr "0.0.0")
          \/ (status_code r <> 404%Z
              /\ (status_code r < 400 \/ 600 <= status_code r)%Z
              /\ exists d : list (string * pyval),
                  json_body r = Some (PyDict d)
                  /\ lookup "tag_name" d = Some v)).
Proof.
  rewrite get_latest_release_version_run.
  destruct (forge w GetLatestRelease) as [r |].
  2: { split; [discriminate | intros (r & H & _); discriminate H]. }
  destruct (Z.eqb_spec (status_code r) 404) as [E4 | N4].
  { cbn. split.
    - intros H. injection H as <-. exists r. split; [reflexivity |]. now left.
    - intros (r' & H & [[_ ->] | [Hn _]]); injection H as <-;
        [reflexivity | now destruct Hn]. }
  destruct ((400 <=? status_code r) && (status_code r <? 600))%Z eqn:R.
  { cbn. split; [discriminate |].
    intros (r' & H & [[Hs _] | (_ & Hr & _)]); injection H as <-.
    - now destruct N4.
    - apply andb_true_iff in R. destruct R as [R1 R2].
      apply Z.leb_le in R1. apply Z.ltb_lt in R2. lia. }
  apply andb_false_iff in R.
  assert (Hr : (status_code r < 400 \/ 600 <= status_code r)%Z).
  { destruct R as [R | R];
      [left; apply Z.leb_gt in R | right; apply Z.ltb_ge in R]; lia. }
  unfold json, getitem.
  destruct (json_body r) as [[| | | | | d] |] eqn:J; cbn;
    try (split; [discriminate |];
         intros (r' & H & [[Hs _] | (_ & _ & d' & Hj & _)]);
         injection H as <-; [now destruct N4 | rewrite J in Hj; discriminate Hj]).
  destruct (lookup "tag_name" d) as [x |] eqn:L; cbn; split.
  - intros H. injection H as <-. exists r. split; [reflexivity |].
    right. repeat split; auto. now exists d.
  - intros (r' & H & [[Hs _] | (_ & _ & d' & Hj & Hl)]); injection H as <-.
    + now destruct N4.
    + rewrite J in Hj. injection Hj as <-. rewrite L in Hl.
      now injection Hl as <-.
  - discriminate.
  - intros (r' & H & [[Hs _] | (_ & _ & d' & Hj & Hl)]); injection H as <-.
    + now destruct N4.
    + rewrite J in Hj. injection Hj as <-. rewrite L in Hl. discriminate Hl.
Qed.

Lemma get_latest_release_version_returns_witness :
  let w := Scenario.push "refs/tags/v1.0.0"
             (Scenario.forge_ok (Scenario.release "v0.9.0")) in
  outcome (get_latest_release_version w) = Ret (PyStr "v0.9.0").
Proof.
  apply (get_latest_release_version_returns
           (Scenario.push "refs/tags/v1.0.0"
              (Scenario.forge_ok (Scenario.release "v0.9.0")))
           (PyStr "v0.9.0")).
  exists (mkResponse 200 "" (Some (PyDict [("tag_name", PyStr "v0.9.0")]))).
  split; [reflexivity |]. right.
  split; [discriminate |]. split; [left; reflexivity |].
  exists [("tag_name", PyStr "v0.9.0")]. split; reflexivity.
Defined.

(** [create_pr] returns a number exactly when the forge answers its request
    with 201 and a JSON object, and the number is the object's ["number"]
    entry. *)
Theorem create_pr_returns (w : World) (new_version : string) (n : pyval) :
  outcome (create_pr w new_version) = Ret n
  <-> exists (r : Response) (body : list (string * pyval)),
      forge w (pulls_request w new_version) = Answer r
      /\ status_code r = 201%Z
      /\ json_body r = Some (PyDict body)
      /\ lookup "number" body = Some n.
Proof.
  rewrite create_pr_run; cbv zeta.
  destruct (forge w (pulls_request w new_version)) as [r |].
  2: { split; [discriminate | intros (r & bd & H & _); discriminate H]. }
  destruct (Z.eqb_spec (status_code r) 201) as [E | N].
  2: { cbn. split; [discriminate |].
       intros (r' & bd & H & Hs & _). injection H as <-. now destruct N. }
  unfold json, getitem.
  destruct (json_body r) as [[| | | | | d] |] eqn:J; cbn;
    try (split; [discriminate |];
         intros (r' & bd & H & _ & Hj & _); injection H as <-;
         rewrite J in Hj; discriminate Hj).
  destruct (lookup "number" d) as [x |] eqn:L; cbn; split.
  - intros H. injection H as <-. now exists r, d.
  - intros (r' & bd & H & _ & Hj & Hl). injection H as <-.
    rewrite J in Hj. injection Hj as <-. rewrite L in Hl.
    now injection Hl as <-.
  - discriminate.
  - intros (r' & bd & H & _ & Hj & Hl). injection H as <-.
    rewrite J in Hj. injection Hj as <-. rewrite L in Hl. discriminate Hl.
Qed.

Lemma create_pr_returns_witness :
  let w := Scenario.push "refs/tags/v1.0.0"
             (Scenario.forge_ok Scenario.no_release) in
  outcome (create_pr w "v1.0.0") = Ret (PyInt 7).
Proof.
  apply (create_pr_returns
           (Scenario.push "refs/tags/v1.0.0"
              (Scenario.forge_ok Scenario.no_release))
           "v1.0.0" (PyInt 7)).
  exists (mkResponse 201 "" (Some (PyDict [("number", PyInt 7)]))),
    [("number", PyInt 7)].
  repeat split.
Defined.

(** A 201 answer that is not a JSON object with ["number"] leaves the pull
    request opened and the run in an exception: [create_pr] has sent its
    request, prints nothing and raises. *)
Theorem create_pr_unreadable_answer (w : World) (new_version : string)
  (r : Response) :
  forge w (pulls_request w new_version) = Answer r ->
  status_code r = 201%Z ->
  (forall (body : list (string * pyval)) (n : pyval),
      json_body r = Some (PyDict body) -> lookup "number" body <> Some n) ->
  trace (create_pr w new_version) = [ERequest (pulls_request w new_version)]
  /\ exists e : Exn,
      outcome (create_pr w new_version) = Raise e
      /\ (e = JSONDecodeError \/ e = TypeError \/ e = KeyError "number").
Proof.
  intros Hf Hs Hb. rewrite create_pr_run; cbv zeta. rewrite Hf.
  apply Z.eqb_eq in Hs. rewrite Hs. unfold json, getitem.
  destruct (json_body r) as [[| | | | | d] |] eqn:J; cbn;
    try (split; [reflexivity | eexists; split; [reflexivity | tauto]]).
  destruct (lookup "number" d) as [x |] eqn:L; cbn.
  - now destruct (Hb d x eq_refl).
  - split; [reflexivity | eexists; split; [reflexivity | tauto]].
Qed.

Lemma create_pr_unreadable_answer_witness :
  let w := Scenario.push "refs/tags/v1.0.0"
             (fun _ => Scenario.ok 201 (Some (PyDict []))) in
  trace (create_pr w "v1.0.0") = [ERequest (pulls_request w "v1.0.0")]
  /\ exists e : Exn,
      outcome (create_pr w "v1.0.0") = Raise e
      /\ (e = JSONDecodeError \/ e = TypeError \/ e = KeyError "number").
Proof.
  apply (create_pr_unreadable_answer
           (Scenario.push "refs/tags/v1.0.0"
              (fun _ => Scenario.ok 201 (Some (PyDict []))))
           "v1.0.0" (mkResponse 201 "" (Some (PyDict [])))).
  - reflexivity.
  - reflexivity.
  - intros body n H. injection H as <-. discriminate.
Defined.



(** ** The order of versions in the version check *)

Section Order.

Import Semver.

Lemma cmp_prerelease_tag_antisym (x y : tag) :
  cmp_prerelease_tag y x = CompOpp (cmp_prerelease_tag x y).
Proof.
  destruct x, y; simpl; try reflexivity.
  - apply N.compare_antisym.
  - apply String.compare_antisym.
Qed.

Lemma cmp_zip_antisym (l1 l2 : list tag) :
  cmp_zip l2 l1 = CompOpp (cmp_zip l1 l2).
Proof.
  revert l2. induction l1 as [| x l1 IH]; intros [| y l2]; simpl;
    try reflexivity.
  rewrite (cmp_prerelease_tag_antisym x y).
  destruct (cmp_prerelease_tag x y); simpl; auto.
Qed.

Lemma _nat_cmp_antisym (a b : option string) :
  _nat_cmp b a = CompOpp (_nat_cmp a b).
Proof.
  unfold _nat_cmp.
  rewrite (cmp_zip_antisym (split_key (or_empty a)) (split_key (or_empty b))).
  destruct (cmp_zip _ _); simpl; try reflexivity.
  apply Nat.compare_antisym.
Qed.

Lemma cmp_tuple_antisym (a b : VersionInfo) :
  cmp_tuple b a = CompOpp (cmp_tuple a b).
Proof.
  unfold cmp_tuple.
  rewrite (N.compare_antisym (major a) (major b)),
    (N.compare_antisym (minor a) (minor b)),
    (N.compare_antisym (patch a) (patch b)).
  destruct (major a ?= major b)%N, (minor a ?= minor b)%N,
    (patch a ?= patch b)%N; reflexivity.
Qed.

(** Two pre-release fields that are both absent or empty compare equal. *)
Lemma _nat_cmp_empty (a b : option string) :
  PyStr.truthy a = false -> PyStr.truthy b = false -> _nat_cmp a b = Eq.
Proof.
  destruct a as [[| ? ?] |], b as [[| ? ?] |]; simpl; intros;
    try discriminate; reflexivity.
Qed.

Lemma compare_antisym (a b : VersionInfo) :
  compare b a = CompOpp (compare a b).
Proof.
  unfold compare. rewrite (cmp_tuple_antisym a b).
  destruct (cmp_tuple a b); simpl; try reflexivity.
  rewrite (_nat_cmp_antisym (prerelease a) (prerelease b)).
  pose proof (_nat_cmp_empty (prerelease a) (prerelease b)) as H.
  destruct (_nat_cmp (prerelease a) (prerelease b)); simpl; try reflexivity;
    destruct (PyStr.truthy (prerelease a)), (PyStr.truthy (prerelease b));
    simpl; try reflexivity; now discriminate H.
Qed.


End Order.



(** The version check passes in one direction at most: when a candidate
    passes against a baseline, the baseline as a candidate is rejected
    against it. *)
Theorem validate_version_one_way (new old : string) :
  outcome (validate_version (PyStr new) (PyStr old)) = Ret tt ->
  outcome (validate_version (PyStr old) (PyStr new)) = Exit 1%Z.
Proof.
  destruct (Semver.parse (PyStr.lstrip "v" new)) as [a |] eqn:Ha.
  2: { now rewrite (validate_version_invalid_new new (PyStr old) Ha). }
  destruct (Semver.parse (PyStr.lstrip "v" old)) as [b |] eqn:Hb.
  2: { now rewrite (validate_version_invalid_old new old a Ha Hb). }
  rewrite (validate_version_valid new old a b Ha Hb),
    (validate_version_valid old new b a Hb Ha).
  unfold Semver.le. rewrite (compare_antisym a b).
  destruct (Semver.compare a b); simpl; congruence.
Qed.

Lemma validate_version_one_way_witness :
  outcome (validate_version (PyStr "1.3.0-rc.1") (PyStr "1.3.0")) = Exit 1%Z.
Proof.
  apply (validate_version_one_way "1.3.0" "1.3.0-rc.1"). reflexivity.
Defined.

(** Leading ['v']s do not count: two pairs of strings that agree once
    stripped get the same verdict. *)
Theorem validate_version_ignores_leading_v (new new' old old' : string) :
  PyStr.lstrip "v" new = PyStr.lstrip "v" new' ->
  PyStr.lstrip "v" old = PyStr.lstrip "v" old' ->
  outcome (validate_version (PyStr new) (PyStr old))
  = outcome (validate_version (PyStr new') (PyStr old')).
Proof.
  intros Hn Ho.
  destruct (Semver.parse (PyStr.lstrip "v" new)) as [a |] eqn:Ha.
  2: { rewrite (validate_version_invalid_new new (PyStr old) Ha).
       rewrite Hn in Ha.
       now rewrite (validate_version_invalid_new new' (PyStr old') Ha). }
  destruct (Semver.parse (PyStr.lstrip "v" old)) as [b |] eqn:Hb.
  2: { rewrite (validate_version_invalid_old new old a Ha Hb).
       rewrite Hn in Ha. rewrite Ho in Hb.
       now rewrite (validate_version_invalid_old new' old' a Ha Hb). }
  rewrite (validate_version_valid new old a b Ha Hb).
  rewrite Hn in Ha. rewrite Ho in Hb.
  now rewrite (validate_version_valid new' old' a b Ha Hb).
Qed.

Lemma validate_version_ignores_leading_v_witness :
  outcome (validate_version (PyStr "vv1.2.0") (PyStr "1.1.9"))
  = outcome (validate_version (PyStr "1.2.0") (PyStr "v1.1.9")).
Proof.
  apply validate_version_ignores_leading_v; reflexivity.
Defined.

(** ** The tag of a pushed ref *)

Section Replace.

Lemma remove_from_skip (old p s : string) :
  PyStr.remove_from old (String.length p) (p ++ s) = PyStr.remove_from old 0 s.
Proof.
  induction p as [| c p IH]; simpl; [| exact IH].
  destruct s; reflexivity.
Qed.

Lemma prefix_app (p s : string) : String.prefix p (p ++ s) = true.
Proof.
  induction p as [| c p IH]; simpl; [now destruct s |].
  destruct (ascii_dec c c) as [_ | N]; [exact IH | now destruct N].
Qed.

(** [replace] drops an occurrence at the head. *)
Lemma remove_all_prefix (c : ascii) (old s : string) :
  PyStr.remove_all (String c old) (String c old ++ s)
  = PyStr.remove_all (String c old) s.
Proof.
  unfold PyStr.remove_all.
  change (String c old ++ s) with (String c (old ++ s)).
  cbn [PyStr.remove_from].
  change (String c (old ++ s)) with (String c old ++ s).
  rewrite prefix_app.
  replace (String.length (String c old) - 1)%nat with (String.length old)
    by (simpl; lia).
  apply remove_from_skip.
Qed.

(** [replace] leaves a string without occurrence as it is. *)
Lemma remove_all_absent (old s : string) :
  PyStr.contains old s = false -> PyStr.remove_all old s = s.
Proof.
  unfold PyStr.remove_all.
  induction s as [| x s IH]; [reflexivity |].
  cbn [PyStr.contains PyStr.remove_from]. intros H.
  apply orb_false_iff in H. destruct H as [Hp Hc].
  rewrite Hp. now rewrite (IH Hc).
Qed.

End Replace.

(** On a push of [refs/tags/<name>], where [<name>] does not itself contain
    [refs/tags/], the run takes [<name>] as the new tag and goes on to ask
    the forge for the latest release. *)
Theorem tag_of_ref (w : World) (name : string) :
  environ w "GITHUB_EVENT_NAME" = Some "push" ->
  environ w "GITHUB_REF" = Some ("refs/tags/" ++ name) ->
  PyStr.contains "refs/tags/" name = false ->
  firstn 3 (trace (main w))
  = [EPrint HandlingTagPush; EPrint (DetectedTag name);
     ERequest GetLatestRelease].
Proof.
  intros Hev Href Hname.
  unfold main, is_event, GITHUB_EVENT_NAME, os_getenv. rewrite Hev.
  simpl String.eqb. cbv iota.
  unfold handle_tag_push, GITHUB_REF, os_getenv. rewrite Href.
  unfold PyStr.startswith. rewrite prefix_app.
  change (PyStr.nonempty ("refs/tags/" ++ name)) with true.
  cbn [negb orb].
  rewrite (remove_all_prefix "r" "efs/tags/" name),
    (remove_all_absent _ _ Hname).
  rewrite !trace_bind. cbn [print emit outcome trace fst snd app].
  rewrite get_latest_release_version_run.
  destruct (forge w GetLatestRelease) as [r |]; [| reflexivity].
  destruct (status_code r =? 404)%Z; [reflexivity |].
  destruct ((400 <=? status_code r) && (status_code r <? 600))%Z;
    [reflexivity |].
  rewrite trace_bind. reflexivity.
Qed.

Lemma tag_of_ref_witness :
  let w := Scenario.push "refs/tags/v0.1.0"
             (Scenario.forge_ok Scenario.no_release) in
  firstn 3 (trace (main w))
  = [EPrint HandlingTagPush; EPrint (DetectedTag "v0.1.0");
     ERequest GetLatestRelease].
Proof.
  apply (tag_of_ref
           (Scenario.push "refs/tags/v0.1.0"
              (Scenario.forge_ok Scenario.no_release))
           "v0.1.0");
    reflexivity.
Defined.

(** [replace] does not stop at the head of the ref: an occurrence of
    [refs/tags/] inside the tag name is dropped as well. *)
Example tag_of_ref_inner_occurrence :
  PyStr.remove_all "refs/tags/" "refs/tags/release/refs/tags/v1.0.0"
  = "release/v1.0.0".
Proof. reflexivity. Qed.
